(** * The audience-generator proxy handler ([src/api/proxy.js])

    A shallow embedding of the serverless function [handler] and the proofs of
    its request/response contract.  JavaScript values, abrupt completions
    ([return] and [throw]) and the observable effects of the function (console
    output, the outbound [fetch], the HTTP reply) are modelled explicitly.

    Strings are held as UTF-8 byte strings; the non-ASCII literals of the
    source are copied byte for byte. *)

From Stdlib Require Import String Ascii List Bool NArith Lia DecimalString DecimalN.
Import ListNotations.
Local Open Scope list_scope.
Local Open Scope string_scope.
Set Warnings "-register-all".

(** ** JavaScript values *)

Module JS.

(** The values a parsed JSON document (or a missing one) can hold.  A Number is
    held as its canonical decimal text, the result of [Number::toString]; the
    only other thing this program observes of a number is its truthiness, which
    that text determines ([+0] and [-0] both print as [0]). *)
Inductive value : Type :=
| VUndefined
| VNull
| VBool (b : bool)
| VNum (text : string)
| VStr (s : string)
| VArr (elements : list value)
| VObj (properties : list (string * value)).

(** An [Error] object, as far as the program reads it. *)
Record js_error : Type := mkError { name : string; message : string }.

(** An expression yields a value or throws. *)
Inductive outcome (A : Type) : Type :=
| Ok (a : A)
| Thrown (e : js_error).
Arguments Ok {A} a.
Arguments Thrown {A} e.

(** Completion records: a statement ends normally, by [return], or by
    [throw]. *)
Inductive completion (A : Type) : Type :=
| Normal (a : A)
| Return
| Throw (e : js_error).
Arguments Normal {A} a.
Arguments Return {A}.
Arguments Throw {A} e.

(** The texts of the engine's own [TypeError]s are implementation-defined. *)
Class Engine : Type := {
  (** thrown by [const { topic } = v] when [v] is [undefined] or [null] *)
  destructure_message : value -> string;
  (** thrown when an object has no usable [toString]/[valueOf] *)
  to_primitive_message : string
}.

(** V8's wording (the function runs on Node.js). *)
Definition v8 : Engine := {|
  destructure_message v :=
    "Cannot destructure property 'topic' of 'request.body' as it is " ++
    match v with VNull => "null" | _ => "undefined" end ++ ".";
  to_primitive_message := "Cannot convert object to primitive value"
|}.

(** [ToBoolean]: the falsy values are [undefined], [null], [false], [0], [NaN]
    and the empty string. *)
Definition ToBoolean (v : value) : bool :=
  match v with
  | VUndefined | VNull => false
  | VBool b => b
  | VNum text => negb (String.eqb text "0" || String.eqb text "NaN")
  | VStr s => negb (String.eqb s EmptyString)
  | VArr _ | VObj _ => true
  end.

(** Own-property lookup in an object literal or a parsed JSON object, whose
    keys are distinct. *)
Fixpoint own_property (key : string) (properties : list (string * value)) : option value :=
  match properties with
  | [] => None
  | (k, v) :: rest => if String.eqb k key then Some v else own_property key rest
  end.

(** [const { key } = v]: [undefined] and [null] cannot be destructured; any
    other value is looked up.  Strings, numbers, booleans and arrays have no
    member called [topic], the only key the program asks for, and neither has
    [Object.prototype]. *)
Definition destructure {engine : Engine} (key : string) (v : value) : outcome value :=
  match v with
  | VUndefined | VNull => Thrown (mkError "TypeError" (destructure_message v))
  | VObj properties =>
      match own_property key properties with
      | Some x => Ok x
      | None => Ok VUndefined
      end
  | VBool _ | VNum _ | VStr _ | VArr _ => Ok VUndefined
  end.

(** [ToString], as a template literal applies it to a substitution.  An array
    is joined with commas, its [undefined] and [null] elements printing as
    nothing.  A plain object prints through [Object.prototype.toString]
    unless an own property shadows it: parsed data is never callable, and
    [valueOf] then yields no primitive either, so the conversion throws. *)
Fixpoint ToString {engine : Engine} (v : value) : outcome string :=
  match v with
  | VUndefined => Ok "undefined"
  | VNull => Ok "null"
  | VBool b => Ok (if b then "true" else "false")
  | VNum text => Ok text
  | VStr s => Ok s
  | VArr elements =>
      (fix join (l : list value) : outcome string :=
         match l with
         | [] => Ok ""
         | x :: rest =>
             match (match x with
                    | VUndefined | VNull => Ok ""
                    | _ => ToString x
                    end) with
             | Ok s =>
                 match rest with
                 | [] => Ok s
                 | _ :: _ =>
                     match join rest with
                     | Ok r => Ok (s ++ "," ++ r)
                     | Thrown e => Thrown e
                     end
                 end
             | Thrown e => Thrown e
             end
         end) elements
  | VObj properties =>
      match own_property "toString" properties with
      | None => Ok "[object Object]"
      | Some _ => Thrown (mkError "TypeError" to_primitive_message)
      end
  end.

(** *** [JSON.stringify] *)

Definition hex_digit (n : nat) : ascii :=
  if Nat.ltb n 10 then ascii_of_nat (48 + n) else ascii_of_nat (87 + n).

(** One code unit of a quoted JSON string. *)
Definition escape_char (c : ascii) : string :=
  let n := nat_of_ascii c in
  if Nat.eqb n 34 then String "\" (String c EmptyString)
  else if Nat.eqb n 92 then "\\"
  else if Nat.eqb n 8 then "\b"
  else if Nat.eqb n 9 then "\t"
  else if Nat.eqb n 10 then "\n"
  else if Nat.eqb n 12 then "\f"
  else if Nat.eqb n 13 then "\r"
  else if Nat.ltb n 32 then
    "\u00" ++ String (hex_digit (Nat.div n 16)) (String (hex_digit (Nat.modulo n 16)) EmptyString)
  else String c EmptyString.

Definition double_quote : string := String (ascii_of_nat 34) EmptyString.

Fixpoint escape (s : string) : string :=
  match s with
  | EmptyString => EmptyString
  | String c rest => escape_char c ++ escape rest
  end.

Definition QuoteJSONString (s : string) : string :=
  double_quote ++ escape s ++ double_quote.

Definition non_finite (text : string) : bool :=
  String.eqb text "NaN" || String.eqb text "Infinity" || String.eqb text "-Infinity".

(** [SerializeJSONProperty]: [None] stands for the [undefined] result. *)
Fixpoint SerializeJSONProperty (v : value) : option string :=
  match v with
  | VUndefined => None
  | VNull => Some "null"
  | VBool b => Some (if b then "true" else "false")
  | VNum text => Some (if non_finite text then "null" else text)
  | VStr s => Some (QuoteJSONString s)
  | VArr elements =>
      Some ("[" ++
            String.concat ","
              ((fix items (l : list value) : list string :=
                  match l with
                  | [] => []
                  | x :: rest =>
                      match SerializeJSONProperty x with
                      | Some s => s
                      | None => "null"
                      end :: items rest
                  end) elements) ++
            "]")
  | VObj properties =>
      Some ("{" ++
            String.concat ","
              ((fix members (l : list (string * value)) : list string :=
                  match l with
                  | [] => []
                  | (k, x) :: rest =>
                      match SerializeJSONProperty x with
                      | Some s => (QuoteJSONString k ++ ":" ++ s) :: members rest
                      | None => members rest
                      end
                  end) properties) ++
            "}")
  end.

Definition JSON_stringify (v : value) : value :=
  match SerializeJSONProperty v with
  | Some s => VStr s
  | None => VUndefined
  end.

End JS.

(** ** Effects *)

Module Effects.
Import JS.

(** A settled promise, as [await] sees it. *)
Inductive settled (A : Type) : Type :=
| Fulfilled (a : A)
| Rejected (reason : js_error).
Arguments Fulfilled {A} a.
Arguments Rejected {A} reason.

(** The outbound side: the second argument of [fetch] and the [Response] it
    resolves to, with the members the handler reads. *)
Module Fetch.
Record RequestInit : Type :=
  { method : string; headers : list (string * string); body : value }.
Record Response : Type :=
  { status : N; text : settled string; json : settled value }.
(** [Response.ok]: the status is in the range 200 to 299. *)
Definition ok (r : Response) : bool :=
  (200 <=? status r)%N && (status r <=? 299)%N.
End Fetch.

(** The inbound request, with the members the handler reads. *)
Module Http.
Record request : Type := { method : string; body : value }.
End Http.

(** What the handler finds around it: the process environment and the
    network's answer to a [fetch]. *)
Record world : Type := {
  GEMINI_API_KEY : option string;
  network : string -> Fetch.RequestInit -> settled Fetch.Response
}.

(** [process.env.NAME] is a string or [undefined]. *)
Definition env_value (o : option string) : value :=
  match o with
  | Some s => VStr s
  | None => VUndefined
  end.

Inductive log_arg : Type :=
| LogStr (s : string)
| LogError (e : js_error).

(** The observable actions, in the order they happen. *)
Inductive event : Type :=
| ConsoleError (args : list log_arg)
| FetchCall (url : string) (init : Fetch.RequestInit)
| Send (statusCode : N) (body : value).

(** The [response] object's pending status code and the actions so far. *)
Record state : Type := { statusCode : N; trace : list event }.

Definition initial : state := {| statusCode := 200; trace := [] |}.

Definition M (A : Type) : Type := state -> completion A * state.

Definition ret {A} (a : A) : M A := fun st => (Normal a, st).

Definition bind {A B} (c : M A) (k : A -> M B) : M B :=
  fun st =>
    match c st with
    | (Normal a, st') => k a st'
    | (Return, st') => (Return, st')
    | (Throw e, st') => (Throw e, st')
    end.

Definition throw {A} (e : js_error) : M A := fun st => (Throw e, st).

Definition return_ {A} : M A := fun st => (Return, st).

(** Evaluating an expression inside a statement. *)
Definition lift {A} (o : outcome A) : M A :=
  match o with
  | Ok a => ret a
  | Thrown e => throw e
  end.

Definition await {A} (p : settled A) : M A :=
  match p with
  | Fulfilled a => ret a
  | Rejected reason => throw reason
  end.

(** [try { body } catch (error) { handler }]: a [return] inside the block
    leaves the function, only a [throw] reaches the handler. *)
Definition try_catch {A} (body : M A) (handler : js_error -> M A) : M A :=
  fun st =>
    match body st with
    | (Throw e, st') => handler e st'
    | r => r
    end.

Definition emit (e : event) : M unit :=
  fun st => (Normal tt, {| statusCode := statusCode st; trace := trace st ++ [e] |}).

Definition console_error (args : list log_arg) : M unit := emit (ConsoleError args).

(** [response.status(code)] *)
Definition response_status (code : N) : M unit :=
  fun st => (Normal tt, {| statusCode := code; trace := trace st |}).

(** [response.json(body)] sends [body] under the pending status code. *)
Definition response_json (body : value) : M unit :=
  fun st => emit (Send (statusCode st) body) st.

(** [await fetch(url, init)] *)
Definition fetch (w : world) (url : string) (init : Fetch.RequestInit) : M Fetch.Response :=
  bind (emit (FetchCall url init)) (fun _ => await (network w url init)).

End Effects.

Declare Scope js_scope.
Delimit Scope js_scope with js.
Notation "x <- c ;; k" := (Effects.bind c (fun x => k))
  (at level 61, c at next level, right associativity) : js_scope.
Notation "c ;; k" := (Effects.bind c (fun _ => k))
  (at level 61, right associativity) : js_scope.

(** ** The handler *)

Module Proxy.
Import JS Effects.
Local Open Scope js_scope.

(** A template literal: the head string, then each substitution with the
    string that follows it; substitutions are converted left to right. *)
Fixpoint template {engine : Engine} (head : string) (spans : list (value * string)) : outcome string :=
  match spans with
  | [] => Ok head
  | (v, s) :: rest =>
      match ToString v with
      | Ok t => template (head ++ t ++ s) rest
      | Thrown e => Thrown e
      end
  end.

Definition modelName : string := "gemini-2.5-flash-preview-05-20".

Definition systemPrompt : string := "你是一位市場調查員和廣告專業的廣告投售。你的任務是根據用戶提供的產品或課程主題，生成一個包含10個行為的列表，以及每個行為底下8到10個精準的感興趣受眾。最重要的一點是：**每個感興趣受眾的描述後方，請務必使用括號 `(...)` 標示一個最相關的廣告平台可選取的受眾標籤（例如：興趣標籤或行為標籤），並緊接著使用方括號 `[...]` 標示該受眾規模的預估人數範圍。請以中文數字單位 (萬, 百萬) 呈現，例如：[人數範圍: 20萬 - 150萬]**。請以繁體中文回應，並嚴格遵循提供的JSON結構和數量要求。請確保受眾描述具體、專業且符合市場行銷的邏輯。".

Definition responseSchema : value :=
  VObj [("type", VStr "ARRAY");
        ("items", VObj [
           ("type", VStr "OBJECT");
           ("properties", VObj [
              ("behavior", VObj [("type", VStr "STRING"); ("description", VStr "與產品主題相關的具體用戶行為")]);
              ("audiences", VObj [
                 ("type", VStr "ARRAY");
                 ("items", VObj [("type", VStr "STRING"); ("description", VStr "對此行為感興趣的8-10個精準受眾輪廓，必須包含標籤和規模")])])]);
           ("required", VArr [VStr "behavior"; VStr "audiences"])])].

Definition payload (userQuery : string) : value :=
  VObj [("contents", VArr [VObj [("parts", VArr [VObj [("text", VStr userQuery)]])]]);
        ("systemInstruction", VObj [("parts", VArr [VObj [("text", VStr systemPrompt)]])]);
        ("generationConfig", VObj [
           ("responseMimeType", VStr "application/json");
           ("responseSchema", responseSchema)])].

(** A Number that is a status code prints in decimal. *)
Definition decimal (n : N) : string := NilEmpty.string_of_uint (N.to_uint n).

Definition number_of_N (n : N) : value := VNum (decimal n).

Definition handler {engine : Engine} (w : world) (request : Http.request) : M unit :=
  if negb (Http.method request =? "POST") then
    response_status 405 ;;
    response_json (VObj [("error", VStr "Method Not Allowed")]) ;;
    return_
  else
    try_catch
      (topic <- lift (destructure "topic" (Http.body request)) ;;
       (if negb (ToBoolean topic) then
          response_status 400 ;;
          response_json (VObj [("error", VStr "主題為必填項")]) ;;
          return_
        else ret tt) ;;
       let apiKey := env_value (GEMINI_API_KEY w) in
       (if negb (ToBoolean apiKey) then
          console_error [LogStr "錯誤：找不到 GEMINI_API_KEY 環境變數"] ;;
          response_status 500 ;;
          response_json (VObj [("error", VStr "API 金鑰未在伺服器上設定")]) ;;
          return_
        else ret tt) ;;
       apiUrl <- lift (template "https://generativelanguage.googleapis.com/v1beta/models/"
                         [(VStr modelName, ":generateContent?key="); (apiKey, "")]) ;;
       userQuery <- lift (template "請針對主題：「" [(topic, "」，生成10個行為及每個行為下8-10個精準受眾。")]) ;;
       geminiResponse <- fetch w apiUrl
         {| Fetch.method := "POST";
            Fetch.headers := [("Content-Type", "application/json")];
            Fetch.body := JSON_stringify (payload userQuery) |} ;;
       (if negb (Fetch.ok geminiResponse) then
          errorText <- await (Fetch.text geminiResponse) ;;
          console_error [LogStr "Gemini API 錯誤:"; LogStr errorText] ;;
          failure <- lift (template "Gemini API 請求失敗，狀態碼: "
                             [(number_of_N (Fetch.status geminiResponse), "")]) ;;
          throw (mkError "Error" failure)
        else ret tt) ;;
       data <- await (Fetch.json geminiResponse) ;;
       response_status 200 ;;
       response_json data)
      (fun error =>
         console_error [LogStr "後端代理發生錯誤:"; LogError error] ;;
         response_status 500 ;;
         response_json (VObj [("error", VStr "後端伺服器發生內部錯誤");
                              ("details", VStr (message error))])).

(** One invocation, from a fresh [response] object, and the state it ends in. *)
Definition run {engine : Engine} (w : world) (request : Http.request) : completion unit * state :=
  handler w request initial.

Definition final {engine : Engine} (w : world) (request : Http.request) : state :=
  snd (run w request).

(** *** What a run shows *)

(** The HTTP replies sent, the outbound calls made and the console lines
    written, each in order. *)
Definition replies (st : state) : list (N * value) :=
  flat_map (fun e => match e with Send code body => [(code, body)] | _ => [] end) (trace st).

Definition fetch_calls (st : state) : list (string * Fetch.RequestInit) :=
  flat_map (fun e => match e with FetchCall url init => [(url, init)] | _ => [] end) (trace st).

Definition console (st : state) : list (list log_arg) :=
  flat_map (fun e => match e with ConsoleError args => [args] | _ => [] end) (trace st).

(** Member access along a chain of keys, [v.a.b.c]. *)
Fixpoint member (keys : list string) (v : value) : option value :=
  match keys with
  | [] => Some v
  | key :: rest =>
      match v with
      | VObj properties =>
          match own_property key properties with
          | Some x => member rest x
          | None => None
          end
      | _ => None
      end
  end.

(** *** The outbound call, for a topic and a key that are strings *)

Definition apiUrl (apiKey : string) : string :=
  "https://generativelanguage.googleapis.com/v1beta/models/gemini-2.5-flash-preview-05-20:generateContent?key=" ++ apiKey.

Definition userQuery (topic : string) : string :=
  "請針對主題：「" ++ topic ++ "」，生成10個行為及每個行為下8-10個精準受眾。".

Definition fetchInit (topic : string) : Fetch.RequestInit :=
  {| Fetch.method := "POST";
     Fetch.headers := [("Content-Type", "application/json")];
     Fetch.body := JSON_stringify (payload (userQuery topic)) |}.

(** What the [catch] block does with the error it receives. *)
Definition caught (error : js_error) : list event :=
  [ConsoleError [LogStr "後端代理發生錯誤:"; LogError error];
   Send 500 (VObj [("error", VStr "後端伺服器發生內部錯誤"); ("details", VStr (message error))])].

(** The error thrown for an upstream status outside the success range. *)
Definition upstream_failure (status : N) : js_error :=
  mkError "Error" ("Gemini API 請求失敗，狀態碼: " ++ decimal status).

End Proxy.

(** ** Concrete requests and worlds *)

Module Sample.
Import JS Effects Proxy.

Definition post (body : value) : Http.request :=
  {| Http.method := "POST"; Http.body := body |}.

Definition get (body : value) : Http.request :=
  {| Http.method := "GET"; Http.body := body |}.

Definition english_course : value := VObj [("topic", VStr "線上英語課程")].

(** A world whose network settles every call the same way. *)
Definition world_of (key : option string) (reply : settled Fetch.Response) : world :=
  {| GEMINI_API_KEY := key; network := fun _ _ => reply |}.

Definition offline : settled Fetch.Response :=
  Rejected (mkError "TypeError" "fetch failed").

(** A 200 whose body is one element of the requested shape. *)
Definition one_behavior : value :=
  VArr [VObj [("behavior", VStr "b"); ("audiences", VArr [VStr "a1"; VStr "a2"])]].

Definition answered : Fetch.Response :=
  {| Fetch.status := 200;
     Fetch.text := Fulfilled "[{...}]";
     Fetch.json := Fulfilled one_behavior |}.

(** A 429 with a diagnostic body. *)
Definition throttled : Fetch.Response :=
  {| Fetch.status := 429;
     Fetch.text := Fulfilled "quota exceeded";
     Fetch.json := Rejected (mkError "SyntaxError" "Unexpected token q in JSON at position 0") |}.

(** A 200 whose body is not JSON. *)
Definition unexpected_token : js_error :=
  mkError "SyntaxError" "Unexpected token < in JSON at position 0".

Definition garbled : Fetch.Response :=
  {| Fetch.status := 200;
     Fetch.text := Fulfilled "<html>";
     Fetch.json := Rejected unexpected_token |}.

(** A 503 whose body cannot be read to its end. *)
Definition cut_off : Fetch.Response :=
  {| Fetch.status := 503;
     Fetch.text := Rejected (mkError "TypeError" "terminated");
     Fetch.json := Rejected (mkError "TypeError" "terminated") |}.

End Sample.

(** ** JSON text, written out *)

Module Wire.
Import JS.

(** JSON text is written below with an apostrophe wherever the text has a
    double quote; [unquoted] puts the double quotes back. *)
Fixpoint unquoted (s : string) : string :=
  match s with
  | EmptyString => EmptyString
  | String c rest =>
      String (if Nat.eqb (nat_of_ascii c) 39 then ascii_of_nat 34 else c) (unquoted rest)
  end.

(** Whether [word] occurs in the text of a string value. *)
Definition mentions (word : string) (v : value) : bool :=
  match v with
  | VStr s =>
      match String.index 0 word s with
      | Some _ => true
      | None => false
      end
  | _ => false
  end.

End Wire.

(** ** Reading a quoted string back *)

Module Unquote.
Import JS.

Definition hex_value (c : ascii) : option nat :=
  let n := nat_of_ascii c in
  if Nat.leb 48 n && Nat.leb n 57 then Some (n - 48)
  else if Nat.leb 97 n && Nat.leb n 102 then Some (n - 87)
  else None.

(** The inverse of [escape] on the text between the quotes of a JSON string:
    a backslash starts an escape, and a bare quote or control character is no
    part of such a text. *)
Fixpoint unescape (s : string) : option string :=
  match s with
  | EmptyString => Some EmptyString
  | String c rest =>
      let n := nat_of_ascii c in
      if Nat.eqb n 92 then
        match rest with
        | EmptyString => None
        | String d rest' =>
            let m := nat_of_ascii d in
            if Nat.eqb m 34 || Nat.eqb m 92 then option_map (String d) (unescape rest')
            else if Nat.eqb m 98 then option_map (String (ascii_of_nat 8)) (unescape rest')
            else if Nat.eqb m 116 then option_map (String (ascii_of_nat 9)) (unescape rest')
            else if Nat.eqb m 110 then option_map (String (ascii_of_nat 10)) (unescape rest')
            else if Nat.eqb m 102 then option_map (String (ascii_of_nat 12)) (unescape rest')
            else if Nat.eqb m 114 then option_map (String (ascii_of_nat 13)) (unescape rest')
            else if Nat.eqb m 117 then
              match rest' with
              | String z1 (String z2 (String h (String l rest''))) =>
                  match hex_value z1, hex_value z2, hex_value h, hex_value l with
                  | Some 0, Some 0, Some a, Some b =>
                      option_map (String (ascii_of_nat (16 * a + b))) (unescape rest'')
                  | _, _, _, _ => None
                  end
              | _ => None
              end
            else None
        end
      else if Nat.eqb n 34 || Nat.ltb n 32 then None
      else option_map (String c) (unescape rest)
  end.

End Unquote.

(** ** The ways through the handler *)

Module Flow.
Import JS Effects Proxy.

Section Flow.
Context {engine : Engine}.
Variable w : world.
Variable request : Http.request.

(** Validation passed and the user query was built: the method is POST, the
    topic is truthy and converts to [t], the key is the non-empty [k]. *)
Definition validated (topic : value) (k t : string) : Prop :=
  Http.method request = "POST" /\
  destructure "topic" (Http.body request) = Ok topic /\
  ToBoolean topic = true /\
  GEMINI_API_KEY w = Some k /\ k <> "" /\
  ToString topic = Ok t.

(** One constructor for each way through the function, with the completion
    and the state it leaves. *)
Inductive path : completion unit * state -> Prop :=
| WrongMethod :
    Http.method request <> "POST" ->
    path (Return,
          {| statusCode := 405;
             trace := [Send 405 (VObj [("error", VStr "Method Not Allowed")])] |})
| BodyThrows (e : js_error) :
    Http.method request = "POST" ->
    destructure "topic" (Http.body request) = Thrown e ->
    path (Normal tt, {| statusCode := 500; trace := caught e |})
| TopicMissing (topic : value) :
    Http.method request = "POST" ->
    destructure "topic" (Http.body request) = Ok topic ->
    ToBoolean topic = false ->
    path (Return,
          {| statusCode := 400;
             trace := [Send 400 (VObj [("error", VStr "主題為必填項")])] |})
| KeyMissing (topic : value) :
    Http.method request = "POST" ->
    destructure "topic" (Http.body request) = Ok topic ->
    ToBoolean topic = true ->
    ToBoolean (env_value (GEMINI_API_KEY w)) = false ->
    path (Return,
          {| statusCode := 500;
             trace := [ConsoleError [LogStr "錯誤：找不到 GEMINI_API_KEY 環境變數"];
                       Send 500 (VObj [("error", VStr "API 金鑰未在伺服器上設定")])] |})
| QueryThrows (topic : value) (k : string) (e : js_error) :
    Http.method request = "POST" ->
    destructure "topic" (Http.body request) = Ok topic ->
    ToBoolean topic = true ->
    GEMINI_API_KEY w = Some k -> k <> "" ->
    ToString topic = Thrown e ->
    path (Normal tt, {| statusCode := 500; trace := caught e |})
| FetchRejected (topic : value) (k t : string) (e : js_error) :
    validated topic k t ->
    network w (apiUrl k) (fetchInit t) = Rejected e ->
    path (Normal tt,
          {| statusCode := 500; trace := FetchCall (apiUrl k) (fetchInit t) :: caught e |})
| Relayed (topic : value) (k t : string) (r : Fetch.Response) (data : value) :
    validated topic k t ->
    network w (apiUrl k) (fetchInit t) = Fulfilled r ->
    Fetch.ok r = true ->
    Fetch.json r = Fulfilled data ->
    path (Normal tt,
          {| statusCode := 200;
             trace := [FetchCall (apiUrl k) (fetchInit t); Send 200 data] |})
| Unparseable (topic : value) (k t : string) (r : Fetch.Response) (e : js_error) :
    validated topic k t ->
    network w (apiUrl k) (fetchInit t) = Fulfilled r ->
    Fetch.ok r = true ->
    Fetch.json r = Rejected e ->
    path (Normal tt,
          {| statusCode := 500; trace := FetchCall (apiUrl k) (fetchInit t) :: caught e |})
| UpstreamFailed (topic : value) (k t : string) (r : Fetch.Response) (errorText : string) :
    validated topic k t ->
    network w (apiUrl k) (fetchInit t) = Fulfilled r ->
    Fetch.ok r = false ->
    Fetch.text r = Fulfilled errorText ->
    path (Normal tt,
          {| statusCode := 500;
             trace := FetchCall (apiUrl k) (fetchInit t)
                      :: ConsoleError [LogStr "Gemini API 錯誤:"; LogStr errorText]
                      :: caught (upstream_failure (Fetch.status r)) |})
| UpstreamUnread (topic : value) (k t : string) (r : Fetch.Response) (e : js_error) :
    validated topic k t ->
    network w (apiUrl k) (fetchInit t) = Fulfilled r ->
    Fetch.ok r = false ->
    Fetch.text r = Rejected e ->
    path (Normal tt,
          {| statusCode := 500; trace := FetchCall (apiUrl k) (fetchInit t) :: caught e |}).

End Flow.
End Flow.

(** ** The paths through the handler *)

Module Paths.
Import JS Effects Proxy Wire.

Lemma append_empty_r (s : string) : s ++ "" = s.
Proof. induction s as [| c s IH]; [reflexivity | cbn; now rewrite IH]. Qed.

Lemma append_assoc (a b c : string) : (a ++ b) ++ c = a ++ b ++ c.
Proof. induction a as [| x a IH]; cbn; [reflexivity | now rewrite IH]. Qed.

(** The JSON text of the payload, character for character. *)
Lemma payload_json (q : string) :
  SerializeJSONProperty (payload q) =
    Some (unquoted "{'contents':[{'parts':[{'text':" ++ QuoteJSONString q
          ++ unquoted "}]}],'systemInstruction':{'parts':[{'text':'" ++ systemPrompt
          ++ unquoted "'}]},'generationConfig':{'responseMimeType':'application/json','responseSchema':{'type':'ARRAY','items':{'type':'OBJECT','properties':{'behavior':{'type':'STRING','description':'與產品主題相關的具體用戶行為'},'audiences':{'type':'ARRAY','items':{'type':'STRING','description':'對此行為感興趣的8-10個精準受眾輪廓，必須包含標籤和規模'}}},'required':['behavior','audiences']}}}}").
Proof.
  unfold payload. cbn [SerializeJSONProperty]. unfold QuoteJSONString.
  cbn [String.concat]. rewrite !append_assoc. cbn. reflexivity.
Qed.

Lemma nonempty_truthy (s : string) : s <> "" -> ToBoolean (VStr s) = true.
Proof. intros Hs. cbn. apply String.eqb_neq in Hs. now rewrite Hs. Qed.

Lemma falsy_key (key : option string) :
  ToBoolean (env_value key) = false <-> key = None \/ key = Some "".
Proof.
  destruct key as [k |]; cbn.
  - destruct (String.eqb_spec k ""); cbn; split; intros Hk;
      try subst; try discriminate; auto.
    destruct Hk as [Hk | Hk]; [discriminate | congruence].
  - split; auto.
Qed.

Lemma ok_range (r : Fetch.Response) :
  Fetch.ok r = true <-> (200 <= Fetch.status r <= 299)%N.
Proof.
  unfold Fetch.ok. rewrite andb_true_iff, !N.leb_le. reflexivity.
Qed.

Lemma not_ok_range (r : Fetch.Response) :
  Fetch.ok r = false <-> (Fetch.status r < 200 \/ 299 < Fetch.status r)%N.
Proof.
  unfold Fetch.ok. rewrite andb_false_iff, !N.leb_gt. reflexivity.
Qed.

Section Run.
Context {engine : Engine}.
Variable w : world.
Variable request : Http.request.

Lemma run_not_post :
  Http.method request <> "POST" ->
  run w request =
    (Return,
     {| statusCode := 405; trace := [Send 405 (VObj [("error", VStr "Method Not Allowed")])] |}).
Proof.
  intros Hm. unfold run, handler.
  apply String.eqb_neq in Hm. rewrite Hm. reflexivity.
Qed.

Hypothesis Hpost : Http.method request = "POST".

Lemma run_body_throws (e : js_error) :
  destructure "topic" (Http.body request) = Thrown e ->
  run w request = (Normal tt, {| statusCode := 500; trace := caught e |}).
Proof.
  intros Hd. unfold run, handler. rewrite Hpost.
  unfold try_catch, bind. rewrite Hd. reflexivity.
Qed.

Variable topic : value.
Hypothesis Htopic : destructure "topic" (Http.body request) = Ok topic.

Lemma run_topic_missing :
  ToBoolean topic = false ->
  run w request =
    (Return,
     {| statusCode := 400; trace := [Send 400 (VObj [("error", VStr "主題為必填項")])] |}).
Proof.
  intros Hb. unfold run, handler. rewrite Hpost.
  unfold try_catch, bind. rewrite Htopic. cbn [lift ret]. rewrite Hb. reflexivity.
Qed.

Hypothesis Htruthy : ToBoolean topic = true.

Lemma run_key_missing :
  ToBoolean (env_value (GEMINI_API_KEY w)) = false ->
  run w request =
    (Return,
     {| statusCode := 500;
        trace := [ConsoleError [LogStr "錯誤：找不到 GEMINI_API_KEY 環境變數"];
                  Send 500 (VObj [("error", VStr "API 金鑰未在伺服器上設定")])] |}).
Proof.
  intros Hk. unfold run, handler. rewrite Hpost.
  unfold try_catch, bind. rewrite Htopic. cbn [lift ret]. rewrite Htruthy.
  cbn [negb]. rewrite Hk. reflexivity.
Qed.

Variable k : string.
Hypothesis Hkey : GEMINI_API_KEY w = Some k.
Hypothesis Hk : k <> "".

Lemma run_query_throws (e : js_error) :
  ToString topic = Thrown e ->
  run w request = (Normal tt, {| statusCode := 500; trace := caught e |}).
Proof.
  intros Ht. unfold run, handler. rewrite Hpost.
  unfold try_catch, bind. rewrite Htopic. cbn [lift ret]. rewrite Htruthy.
  cbn [negb]. rewrite Hkey. cbn [env_value ToBoolean].
  apply String.eqb_neq in Hk. rewrite Hk. cbn [negb template ToString lift ret].
  rewrite Ht. reflexivity.
Qed.

Variable t : string.
Hypothesis Htext : ToString topic = Ok t.

(** Up to the [await fetch(...)]: the call is on the record and the network
    has settled it. *)
Ltac to_the_call :=
  unfold run, handler; rewrite Hpost;
  unfold try_catch, bind, fetch; rewrite Htopic; cbn [lift ret]; rewrite Htruthy;
  cbn [negb]; rewrite Hkey; cbn [env_value ToBoolean];
  rewrite (proj2 (String.eqb_neq _ _) Hk); cbn [negb template ToString lift ret];
  rewrite Htext; cbn [lift ret]; rewrite !append_empty_r;
  unfold bind, emit; cbn [trace statusCode app initial];
  change (network w _ _) with (network w (apiUrl k) (fetchInit t)).

Lemma run_fetch_rejected (e : js_error) :
  network w (apiUrl k) (fetchInit t) = Rejected e ->
  run w request =
    (Normal tt,
     {| statusCode := 500; trace := FetchCall (apiUrl k) (fetchInit t) :: caught e |}).
Proof.
  intros Hn. to_the_call. rewrite Hn. reflexivity.
Qed.

Variable r : Fetch.Response.
Hypothesis Hreply : network w (apiUrl k) (fetchInit t) = Fulfilled r.

Lemma run_relayed (data : value) :
  Fetch.ok r = true ->
  Fetch.json r = Fulfilled data ->
  run w request =
    (Normal tt,
     {| statusCode := 200; trace := [FetchCall (apiUrl k) (fetchInit t); Send 200 data] |}).
Proof.
  intros Hok Hj. to_the_call. rewrite Hreply. cbn [await ret]. rewrite Hok.
  cbn [negb]. rewrite Hj. reflexivity.
Qed.

Lemma run_unparseable (e : js_error) :
  Fetch.ok r = true ->
  Fetch.json r = Rejected e ->
  run w request =
    (Normal tt,
     {| statusCode := 500; trace := FetchCall (apiUrl k) (fetchInit t) :: caught e |}).
Proof.
  intros Hok Hj. to_the_call. rewrite Hreply. cbn [await ret]. rewrite Hok.
  cbn [negb]. rewrite Hj. reflexivity.
Qed.

Lemma run_upstream_failed (errorText : string) :
  Fetch.ok r = false ->
  Fetch.text r = Fulfilled errorText ->
  run w request =
    (Normal tt,
     {| statusCode := 500;
        trace := FetchCall (apiUrl k) (fetchInit t)
                 :: ConsoleError [LogStr "Gemini API 錯誤:"; LogStr errorText]
                 :: caught (upstream_failure (Fetch.status r)) |}).
Proof.
  intros Hok Ht. to_the_call. rewrite Hreply. cbn [await ret]. rewrite Hok.
  cbn [negb]. rewrite Ht. cbn [await ret template ToString number_of_N lift].
  rewrite append_empty_r. reflexivity.
Qed.

Lemma run_upstream_unread (e : js_error) :
  Fetch.ok r = false ->
  Fetch.text r = Rejected e ->
  run w request =
    (Normal tt,
     {| statusCode := 500; trace := FetchCall (apiUrl k) (fetchInit t) :: caught e |}).
Proof.
  intros Hok Ht. to_the_call. rewrite Hreply. cbn [await ret]. rewrite Hok.
  cbn [negb]. rewrite Ht. reflexivity.
Qed.

End Run.
End Paths.

(** ** Where a run ends *)

Module Outcomes.
Import JS Effects Proxy Paths.

Section Outcomes.
Context {engine : Engine}.
Variable w : world.
Variable request : Http.request.

(** Past validation, with a topic that converts to a string, the handler
    makes one call, whatever the network answers. *)
Lemma calls_when_valid (topic : value) (t k : string) :
  Http.method request = "POST" ->
  destructure "topic" (Http.body request) = Ok topic ->
  ToBoolean topic = true ->
  ToString topic = Ok t ->
  GEMINI_API_KEY w = Some k -> k <> "" ->
  fetch_calls (final w request) = [(apiUrl k, fetchInit t)].
Proof.
  intros Hm Hd Hb Ht Hk Hne. unfold final.
  destruct (network w (apiUrl k) (fetchInit t)) as [r | e] eqn:Hn.
  - destruct (Fetch.ok r) eqn:Hok.
    + destruct (Fetch.json r) as [data | e] eqn:Hj.
      * now rewrite (run_relayed w request Hm topic Hd Hb k Hk Hne t Ht r Hn data Hok Hj).
      * now rewrite (run_unparseable w request Hm topic Hd Hb k Hk Hne t Ht r Hn e Hok Hj).
    + destruct (Fetch.text r) as [errorText | e] eqn:Hx.
      * now rewrite (run_upstream_failed w request Hm topic Hd Hb k Hk Hne t Ht r Hn errorText Hok Hx).
      * now rewrite (run_upstream_unread w request Hm topic Hd Hb k Hk Hne t Ht r Hn e Hok Hx).
  - now rewrite (run_fetch_rejected w request Hm topic Hd Hb k Hk Hne t Ht e Hn).
Qed.

(** Every run sends one reply, and calls out either not at all or once, past
    validation. *)
Lemma reply_and_calls :
  exists reply,
    replies (final w request) = [reply] /\
    (fetch_calls (final w request) = [] \/
     exists topic t k,
       Http.method request = "POST" /\
       destructure "topic" (Http.body request) = Ok topic /\
       ToBoolean topic = true /\
       GEMINI_API_KEY w = Some k /\ k <> "" /\
       ToString topic = Ok t /\
       fetch_calls (final w request) = [(apiUrl k, fetchInit t)]).
Proof.
  unfold final.
  destruct (String.eqb_spec (Http.method request) "POST") as [Hm | Hm].
  2: { rewrite (run_not_post w request Hm). eexists; split; [reflexivity | now left]. }
  destruct (destructure "topic" (Http.body request)) as [topic | e] eqn:Hd.
  2: { rewrite (run_body_throws w request Hm e Hd). eexists; split; [reflexivity | now left]. }
  destruct (ToBoolean topic) eqn:Hb.
  2: { rewrite (run_topic_missing w request Hm topic Hd Hb).
       eexists; split; [reflexivity | now left]. }
  destruct (ToBoolean (env_value (GEMINI_API_KEY w))) eqn:Hkb.
  2: { rewrite (run_key_missing w request Hm topic Hd Hb Hkb).
       eexists; split; [reflexivity | now left]. }
  destruct (GEMINI_API_KEY w) as [k |] eqn:Hk; [| discriminate].
  assert (Hne : k <> "").
  { intros ->. discriminate. }
  destruct (ToString topic) as [t | e] eqn:Ht.
  2: { rewrite (run_query_throws w request Hm topic Hd Hb k Hk Hne e Ht).
       eexists; split; [reflexivity | now left]. }
  assert (Hcalls := calls_when_valid topic t k Hm Hd Hb Ht Hk Hne). unfold final in Hcalls.
  assert (exists reply, replies (snd (run w request)) = [reply]) as [reply Hreply].
  { destruct (network w (apiUrl k) (fetchInit t)) as [r | e] eqn:Hn.
    - destruct (Fetch.ok r) eqn:Hok.
      + destruct (Fetch.json r) as [data | e] eqn:Hj.
        * rewrite (run_relayed w request Hm topic Hd Hb k Hk Hne t Ht r Hn data Hok Hj).
          eexists; reflexivity.
        * rewrite (run_unparseable w request Hm topic Hd Hb k Hk Hne t Ht r Hn e Hok Hj).
          eexists; reflexivity.
      + destruct (Fetch.text r) as [errorText | e] eqn:Hx.
        * rewrite (run_upstream_failed w request Hm topic Hd Hb k Hk Hne t Ht r Hn errorText Hok Hx).
          eexists; reflexivity.
        * rewrite (run_upstream_unread w request Hm topic Hd Hb k Hk Hne t Ht r Hn e Hok Hx).
          eexists; reflexivity.
    - rewrite (run_fetch_rejected w request Hm topic Hd Hb k Hk Hne t Ht e Hn).
      eexists; reflexivity. }
  exists reply. split; [exact Hreply | right].
  exists topic, t, k. repeat split; assumption.
Qed.

End Outcomes.
End Outcomes.

(** ** The contract of the handler *)

Module Contract.
Import JS Effects Proxy Paths Outcomes Sample Wire.

Section Contract.
Context {engine : Engine}.
Variable w : world.
Variable request : Http.request.

(** C1.  A POST with a non-empty topic, under a configured credential, whose
    upstream call comes back with a success status and a JSON body [data]:
    the handler replies once, with status 200 and [data] itself, whatever
    value [data] is. *)
Theorem relay_verbatim (topic k : string) (r : Fetch.Response) (data : value) :
  Http.method request = "POST" ->
  destructure "topic" (Http.body request) = Ok (VStr topic) -> topic <> "" ->
  GEMINI_API_KEY w = Some k -> k <> "" ->
  network w (apiUrl k) (fetchInit topic) = Fulfilled r ->
  (200 <= Fetch.status r <= 299)%N ->
  Fetch.json r = Fulfilled data ->
  replies (final w request) = [(200%N, data)].
Proof.
  intros Hm Hd Ht Hk Hne Hn Hok Hj. apply ok_range in Hok. unfold final.
  now rewrite (run_relayed w request Hm (VStr topic) Hd (nonempty_truthy topic Ht)
                 k Hk Hne topic eq_refl r Hn data Hok Hj).
Qed.

(** C2.  The same request, when the upstream status is outside the success
    range and its body reads as [errorText]: the handler replies once, with
    status 500, the fixed [error] text and a non-empty [details] that is the
    failure message built from the status code alone; [errorText] goes to the
    console and is no part of the reply. *)
Theorem upstream_failure_is_masked (topic k : string) (r : Fetch.Response) (errorText : string) :
  Http.method request = "POST" ->
  destructure "topic" (Http.body request) = Ok (VStr topic) -> topic <> "" ->
  GEMINI_API_KEY w = Some k -> k <> "" ->
  network w (apiUrl k) (fetchInit topic) = Fulfilled r ->
  (Fetch.status r < 200 \/ 299 < Fetch.status r)%N ->
  Fetch.text r = Fulfilled errorText ->
  exists details,
    replies (final w request) =
      [(500%N, VObj [("error", VStr "後端伺服器發生內部錯誤"); ("details", VStr details)])] /\
    details = "Gemini API 請求失敗，狀態碼: " ++ decimal (Fetch.status r) /\
    details <> "" /\
    In [LogStr "Gemini API 錯誤:"; LogStr errorText] (console (final w request)).
Proof.
  intros Hm Hd Ht Hk Hne Hn Hok Hx. apply not_ok_range in Hok. unfold final.
  rewrite (run_upstream_failed w request Hm (VStr topic) Hd (nonempty_truthy topic Ht)
             k Hk Hne topic eq_refl r Hn errorText Hok Hx).
  eexists. split; [reflexivity |]. split; [reflexivity |].
  split; [discriminate | now left].
Qed.

(** C3.  A POST with a non-empty topic when the credential is absent (or
    empty): the handler replies once, with status 500 and a body whose only
    field is the fixed [error] text, after one console line reporting the
    missing variable; the run is the same whatever else the world holds. *)
Theorem missing_credential (topic : value) :
  Http.method request = "POST" ->
  destructure "topic" (Http.body request) = Ok topic -> ToBoolean topic = true ->
  GEMINI_API_KEY w = None \/ GEMINI_API_KEY w = Some "" ->
  replies (final w request) = [(500%N, VObj [("error", VStr "API 金鑰未在伺服器上設定")])] /\
  console (final w request) = [[LogStr "錯誤：找不到 GEMINI_API_KEY 環境變數"]] /\
  fetch_calls (final w request) = [].
Proof.
  intros Hm Hd Hb Hk. apply falsy_key in Hk. unfold final.
  now rewrite (run_key_missing w request Hm topic Hd Hb Hk).
Qed.

(** C4.  A POST whose body has no [topic], or a [topic] that is [null] or the
    empty string: the handler replies once, with status 400 and the
    required-field message as the only field. *)
Theorem missing_topic (topic : value) :
  Http.method request = "POST" ->
  destructure "topic" (Http.body request) = Ok topic ->
  topic = VUndefined \/ topic = VNull \/ topic = VStr "" ->
  replies (final w request) = [(400%N, VObj [("error", VStr "主題為必填項")])].
Proof.
  intros Hm Hd Ht. unfold final.
  rewrite (run_topic_missing w request Hm topic Hd); [reflexivity |].
  now destruct Ht as [-> | [-> | ->]].
Qed.

(** C5.  Any method other than POST: the handler replies once, with status
    405 and the body [{error: 'Method Not Allowed'}], and makes no outbound
    call. *)
Theorem method_not_allowed :
  Http.method request <> "POST" ->
  replies (final w request) = [(405%N, VObj [("error", VStr "Method Not Allowed")])] /\
  fetch_calls (final w request) = [].
Proof.
  intros Hm. unfold final. now rewrite (run_not_post w request Hm).
Qed.

(** C6 (amended).  A POST with a non-empty topic under a configured
    credential makes one outbound call: a POST to the endpoint URL ending in
    [?key=] and the credential, with a JSON content type and, as its body,
    the JSON text of the payload, given here character for character.  The
    payload holds the fixed system instruction, the user query (the fixed
    sentence around the topic) and the response schema: an array of objects
    in which [behavior], a string, and [audiences], an array of strings, are
    required.  The schema bounds no array: it has no [minItems] and no
    [maxItems], and the count of 8-10 stands only in the description text of
    the items (and in the two prompts). *)
Theorem outbound_request (topic k : string) :
  Http.method request = "POST" ->
  destructure "topic" (Http.body request) = Ok (VStr topic) -> topic <> "" ->
  GEMINI_API_KEY w = Some k -> k <> "" ->
  exists payload text,
    fetch_calls (final w request) =
      [("https://generativelanguage.googleapis.com/v1beta/models/gemini-2.5-flash-preview-05-20:generateContent?key=" ++ k,
        {| Fetch.method := "POST";
           Fetch.headers := [("Content-Type", "application/json")];
           Fetch.body := VStr text |})] /\
    text =
      unquoted "{'contents':[{'parts':[{'text':"
      ++ QuoteJSONString ("請針對主題：「" ++ topic ++ "」，生成10個行為及每個行為下8-10個精準受眾。")
      ++ unquoted "}]}],'systemInstruction':{'parts':[{'text':'"
      ++ systemPrompt
      ++ unquoted "'}]},'generationConfig':{'responseMimeType':'application/json','responseSchema':{'type':'ARRAY','items':{'type':'OBJECT','properties':{'behavior':{'type':'STRING','description':'與產品主題相關的具體用戶行為'},'audiences':{'type':'ARRAY','items':{'type':'STRING','description':'對此行為感興趣的8-10個精準受眾輪廓，必須包含標籤和規模'}}},'required':['behavior','audiences']}}}}" /\
    SerializeJSONProperty payload = Some text /\
    member ["systemInstruction"; "parts"] payload = Some (VArr [VObj [("text", VStr systemPrompt)]]) /\
    member ["contents"] payload =
      Some (VArr [VObj [("parts", VArr [VObj [("text", VStr ("請針對主題：「" ++ topic ++ "」，生成10個行為及每個行為下8-10個精準受眾。"))]])]]) /\
    member ["generationConfig"; "responseMimeType"] payload = Some (VStr "application/json") /\
    member ["generationConfig"; "responseSchema"; "type"] payload = Some (VStr "ARRAY") /\
    member ["generationConfig"; "responseSchema"; "items"; "type"] payload = Some (VStr "OBJECT") /\
    member ["generationConfig"; "responseSchema"; "items"; "required"] payload =
      Some (VArr [VStr "behavior"; VStr "audiences"]) /\
    member ["generationConfig"; "responseSchema"; "items"; "properties"; "behavior"; "type"] payload =
      Some (VStr "STRING") /\
    member ["generationConfig"; "responseSchema"; "items"; "properties"; "audiences"] payload =
      Some (VObj [("type", VStr "ARRAY");
                  ("items", VObj [("type", VStr "STRING");
                                  ("description", VStr "對此行為感興趣的8-10個精準受眾輪廓，必須包含標籤和規模")])]) /\
    member ["generationConfig"; "responseSchema"; "items"; "properties"; "audiences"; "minItems"]
      payload = None /\
    member ["generationConfig"; "responseSchema"; "items"; "properties"; "audiences"; "maxItems"]
      payload = None /\
    member ["generationConfig"; "responseSchema"; "minItems"] payload = None /\
    member ["generationConfig"; "responseSchema"; "maxItems"] payload = None.
Proof.
  intros Hm Hd Ht Hk Hne.
  exists (Proxy.payload (userQuery topic)). eexists. split; [| split; [reflexivity |]].
  - rewrite (calls_when_valid w request (VStr topic) topic k Hm Hd
               (nonempty_truthy topic Ht) eq_refl Hk Hne).
    unfold fetchInit, JSON_stringify. rewrite payload_json. reflexivity.
  - split; [exact (payload_json (userQuery topic)) | repeat split].
Qed.

(** C7.  Validation runs in the order method, topic, credential: a request
    that is not a POST gets 405 whatever its body and whatever the world
    holds, and a POST without a topic gets 400 whether or not a credential is
    configured. *)
Theorem validation_order :
  (Http.method request <> "POST" ->
   replies (final w request) = [(405%N, VObj [("error", VStr "Method Not Allowed")])]) /\
  (Http.method request = "POST" ->
   forall topic, destructure "topic" (Http.body request) = Ok topic ->
   ToBoolean topic = false ->
   replies (final w request) = [(400%N, VObj [("error", VStr "主題為必填項")])] /\
   console (final w request) = []).
Proof.
  unfold final. split.
  - intros Hm. now rewrite (run_not_post w request Hm).
  - intros Hm topic Hd Hb. now rewrite (run_topic_missing w request Hm topic Hd Hb).
Qed.

(** C8 (amended).  Every run sends exactly one reply and makes at most one
    outbound call.  It makes exactly one when the method is POST, the topic is
    truthy and converts to a string (every non-empty string does) and the
    credential is configured; it makes none when the method, the topic or the
    credential fails validation, or when the topic does not convert to a
    string. *)
Theorem one_call_one_reply :
  length (replies (final w request)) = 1 /\
  length (fetch_calls (final w request)) <= 1 /\
  (forall topic k t,
     Http.method request = "POST" ->
     destructure "topic" (Http.body request) = Ok topic -> ToBoolean topic = true ->
     ToString topic = Ok t ->
     GEMINI_API_KEY w = Some k -> k <> "" ->
     fetch_calls (final w request) = [(apiUrl k, fetchInit t)]) /\
  (forall topic k,
     Http.method request = "POST" ->
     destructure "topic" (Http.body request) = Ok (VStr topic) -> topic <> "" ->
     GEMINI_API_KEY w = Some k -> k <> "" ->
     length (fetch_calls (final w request)) = 1) /\
  (Http.method request <> "POST" \/
   (forall topic, destructure "topic" (Http.body request) = Ok topic -> ToBoolean topic = false) \/
   GEMINI_API_KEY w = None \/ GEMINI_API_KEY w = Some "" \/
   (exists topic e, destructure "topic" (Http.body request) = Ok topic /\ ToString topic = Thrown e) ->
   fetch_calls (final w request) = []).
Proof.
  destruct (reply_and_calls w request) as [reply [Hr Hc]].
  split; [now rewrite Hr |]. split; [| split; [| split]].
  - destruct Hc as [-> | (topic & t & k & _ & _ & _ & _ & _ & _ & ->)]; cbn; lia.
  - intros topic k t Hm Hd Hb Ht Hk Hne.
    exact (calls_when_valid w request topic t k Hm Hd Hb Ht Hk Hne).
  - intros topic k Hm Hd Ht Hk Hne.
    now rewrite (calls_when_valid w request (VStr topic) topic k Hm Hd
                   (nonempty_truthy topic Ht) eq_refl Hk Hne).
  - intros Hbad.
    destruct Hc as [Hc | (topic & t & k & Hm & Hd & Hb & Hk & Hne & Ht & _)]; [exact Hc |].
    exfalso. destruct Hbad as [Hbad | [Hbad | [Hbad | [Hbad | (topic' & e & Hd' & He)]]]].
    + contradiction.
    + rewrite (Hbad topic Hd) in Hb. discriminate.
    + congruence.
    + rewrite Hk in Hbad. injection Hbad as ->. now apply Hne.
    + rewrite Hd in Hd'. injection Hd' as <-. rewrite Ht in He. discriminate.
Qed.

(** C9.  A POST whose body is [null] or [undefined]: reading [topic] throws,
    the [catch] block takes over, and the handler replies once, with status
    500 and the internal-error body whose [details] is the thrown error's
    message; no 400 is sent. *)
Theorem nullish_body :
  Http.method request = "POST" ->
  Http.body request = VNull \/ Http.body request = VUndefined ->
  replies (final w request) =
    [(500%N, VObj [("error", VStr "後端伺服器發生內部錯誤");
                  ("details", VStr (destructure_message (Http.body request)))])].
Proof.
  intros Hm Hb. unfold final.
  rewrite (run_body_throws w request Hm
             (mkError "TypeError" (destructure_message (Http.body request)))).
  - reflexivity.
  - now destruct Hb as [-> | ->].
Qed.

(** C10.  A POST with a non-empty topic under a configured credential, when
    the upstream status is in the success range but reading the body as JSON
    fails with [e]: the handler replies once, with status 500 and the
    internal-error body whose [details] is the message of [e]. *)
Theorem unparseable_upstream_body (topic k : string) (r : Fetch.Response) (e : js_error) :
  Http.method request = "POST" ->
  destructure "topic" (Http.body request) = Ok (VStr topic) -> topic <> "" ->
  GEMINI_API_KEY w = Some k -> k <> "" ->
  network w (apiUrl k) (fetchInit topic) = Fulfilled r ->
  (200 <= Fetch.status r <= 299)%N ->
  Fetch.json r = Rejected e ->
  replies (final w request) =
    [(500%N, VObj [("error", VStr "後端伺服器發生內部錯誤"); ("details", VStr (message e))])].
Proof.
  intros Hm Hd Ht Hk Hne Hn Hok Hj. apply ok_range in Hok. unfold final.
  now rewrite (run_unparseable w request Hm (VStr topic) Hd (nonempty_truthy topic Ht)
                 k Hk Hne topic eq_refl r Hn e Hok Hj).
Qed.

End Contract.

(** *** The theorems at concrete requests *)

Lemma relay_verbatim_witness :
  replies (final (engine := v8) (world_of (Some "secret") (Fulfilled answered)) (post english_course))
  = [(200%N, one_behavior)].
Proof.
  apply (relay_verbatim (engine := v8) _ _ "線上英語課程" "secret" answered one_behavior);
    try reflexivity; try discriminate.
  cbn; lia.
Defined.

Lemma upstream_failure_is_masked_witness :
  exists details,
    replies (final (engine := v8) (world_of (Some "secret") (Fulfilled throttled)) (post english_course))
    = [(500%N, VObj [("error", VStr "後端伺服器發生內部錯誤"); ("details", VStr details)])] /\
    details = "Gemini API 請求失敗，狀態碼: " ++ decimal 429 /\
    details <> "" /\
    In [LogStr "Gemini API 錯誤:"; LogStr "quota exceeded"]
       (console (final (engine := v8) (world_of (Some "secret") (Fulfilled throttled))
                   (post english_course))).
Proof.
  apply (upstream_failure_is_masked (engine := v8) _ _ "線上英語課程" "secret" throttled
           "quota exceeded");
    try reflexivity; try discriminate.
  right; reflexivity.
Defined.

Lemma missing_credential_witness :
  replies (final (engine := v8) (world_of None offline) (post english_course))
  = [(500%N, VObj [("error", VStr "API 金鑰未在伺服器上設定")])] /\
  console (final (engine := v8) (world_of None offline) (post english_course))
  = [[LogStr "錯誤：找不到 GEMINI_API_KEY 環境變數"]] /\
  fetch_calls (final (engine := v8) (world_of None offline) (post english_course)) = [].
Proof.
  apply (missing_credential (engine := v8) _ _ (VStr "線上英語課程"));
    [reflexivity | reflexivity | reflexivity | left; reflexivity].
Defined.

Lemma missing_topic_witness :
  replies (final (engine := v8) (world_of (Some "secret") (Fulfilled answered))
             (post (VObj [("topic", VStr "")])))
  = [(400%N, VObj [("error", VStr "主題為必填項")])].
Proof.
  apply (missing_topic (engine := v8) _ _ (VStr ""));
    [reflexivity | reflexivity | right; right; reflexivity].
Defined.

Lemma method_not_allowed_witness :
  replies (final (engine := v8) (world_of (Some "secret") (Fulfilled answered)) (get english_course))
  = [(405%N, VObj [("error", VStr "Method Not Allowed")])] /\
  fetch_calls (final (engine := v8) (world_of (Some "secret") (Fulfilled answered))
                 (get english_course)) = [].
Proof.
  apply (method_not_allowed (engine := v8)). discriminate.
Defined.

Lemma outbound_request_witness :
  exists text,
    fetch_calls (final (engine := v8) (world_of (Some "secret") offline) (post english_course)) =
      [(apiUrl "secret",
        {| Fetch.method := "POST";
           Fetch.headers := [("Content-Type", "application/json")];
           Fetch.body := VStr text |})] /\
    text =
      unquoted "{'contents':[{'parts':[{'text':"
      ++ QuoteJSONString ("請針對主題：「" ++ "線上英語課程" ++ "」，生成10個行為及每個行為下8-10個精準受眾。")
      ++ unquoted "}]}],'systemInstruction':{'parts':[{'text':'"
      ++ systemPrompt
      ++ unquoted "'}]},'generationConfig':{'responseMimeType':'application/json','responseSchema':{'type':'ARRAY','items':{'type':'OBJECT','properties':{'behavior':{'type':'STRING','description':'與產品主題相關的具體用戶行為'},'audiences':{'type':'ARRAY','items':{'type':'STRING','description':'對此行為感興趣的8-10個精準受眾輪廓，必須包含標籤和規模'}}},'required':['behavior','audiences']}}}}".
Proof.
  destruct (outbound_request (engine := v8) (world_of (Some "secret") offline)
              (post english_course) "線上英語課程" "secret")
    as (payload & text & Hcalls & Htext & _);
    try reflexivity; try discriminate.
  exists text. split; [exact Hcalls | exact Htext].
Defined.

(** The call made for the sample request: its schema gives the [audiences]
    array a type and an item shape and nothing else, and the words
    [minItems] and [maxItems] occur nowhere in the body sent. *)
Lemma outbound_schema_is_unbounded :
  exists payload text,
    fetch_calls (final (engine := v8) (world_of (Some "secret") offline) (post english_course)) =
      [(apiUrl "secret",
        {| Fetch.method := "POST";
           Fetch.headers := [("Content-Type", "application/json")];
           Fetch.body := VStr text |})] /\
    SerializeJSONProperty payload = Some text /\
    member ["generationConfig"; "responseSchema"; "items"; "properties"; "audiences"] payload =
      Some (VObj [("type", VStr "ARRAY");
                  ("items", VObj [("type", VStr "STRING");
                                  ("description", VStr "對此行為感興趣的8-10個精準受眾輪廓，必須包含標籤和規模")])]) /\
    member ["generationConfig"; "responseSchema"; "items"; "properties"; "audiences"; "minItems"]
      payload = None /\
    member ["generationConfig"; "responseSchema"; "items"; "properties"; "audiences"; "maxItems"]
      payload = None /\
    mentions "minItems" (VStr text) = false /\
    mentions "maxItems" (VStr text) = false /\
    mentions "required" (VStr text) = true.
Proof.
  exists (Proxy.payload (userQuery "線上英語課程")). eexists.
  split; [vm_compute; reflexivity |].
  split; [vm_compute; reflexivity |].
  repeat split; vm_compute; reflexivity.
Qed.

Lemma validation_order_witness :
  replies (final (engine := v8) (world_of None offline) (get VNull))
  = [(405%N, VObj [("error", VStr "Method Not Allowed")])] /\
  replies (final (engine := v8) (world_of None offline) (post (VObj [("topic", VNull)])))
  = [(400%N, VObj [("error", VStr "主題為必填項")])].
Proof.
  split.
  - apply (proj1 (validation_order (engine := v8) (world_of None offline) (get VNull))).
    discriminate.
  - apply (proj2 (validation_order (engine := v8) (world_of None offline)
                    (post (VObj [("topic", VNull)]))) eq_refl VNull eq_refl eq_refl).
Defined.

Lemma one_call_one_reply_witness :
  length (fetch_calls (final (engine := v8) (world_of (Some "secret") (Fulfilled throttled))
                         (post english_course))) = 1 /\
  fetch_calls (final (engine := v8) (world_of (Some "secret") (Fulfilled answered))
                 (post (VObj [("topic", VNum "42")]))) = [(apiUrl "secret", fetchInit "42")] /\
  fetch_calls (final (engine := v8) (world_of None (Fulfilled answered)) (post english_course)) = [].
Proof.
  split; [| split].
  - destruct (one_call_one_reply (engine := v8)
                (world_of (Some "secret") (Fulfilled throttled)) (post english_course))
      as (_ & _ & _ & Hone & _).
    apply (Hone "線上英語課程" "secret"); try reflexivity; discriminate.
  - destruct (one_call_one_reply (engine := v8)
                (world_of (Some "secret") (Fulfilled answered))
                (post (VObj [("topic", VNum "42")])))
      as (_ & _ & Hcall & _).
    apply (Hcall (VNum "42") "secret" "42"); try reflexivity; discriminate.
  - destruct (one_call_one_reply (engine := v8)
                (world_of None (Fulfilled answered)) (post english_course))
      as (_ & _ & _ & _ & Hnone).
    apply Hnone. right; right; left; reflexivity.
Defined.

(** A POST that passes the three checks and makes no call: the topic is an
    object, hence truthy, whose own [toString] member keeps it from being
    interpolated. *)
Lemma validated_without_a_call :
  Http.method (post (VObj [("topic", VObj [("toString", VNum "1")])])) = "POST" /\
  destructure (engine := v8) "topic"
    (Http.body (post (VObj [("topic", VObj [("toString", VNum "1")])]))) =
    Ok (VObj [("toString", VNum "1")]) /\
  ToBoolean (VObj [("toString", VNum "1")]) = true /\
  GEMINI_API_KEY (world_of (Some "secret") (Fulfilled answered)) = Some "secret" /\
  fetch_calls (final (engine := v8) (world_of (Some "secret") (Fulfilled answered))
                 (post (VObj [("topic", VObj [("toString", VNum "1")])]))) = [] /\
  map fst (replies (final (engine := v8) (world_of (Some "secret") (Fulfilled answered))
                      (post (VObj [("topic", VObj [("toString", VNum "1")])])))) = [500%N].
Proof.
  repeat split.
Qed.

Lemma nullish_body_witness :
  replies (final (engine := v8) (world_of (Some "secret") (Fulfilled answered)) (post VUndefined))
  = [(500%N,
      VObj [("error", VStr "後端伺服器發生內部錯誤");
            ("details",
             VStr "Cannot destructure property 'topic' of 'request.body' as it is undefined.")])].
Proof.
  apply (nullish_body (engine := v8) _ (post VUndefined)); [reflexivity | right; reflexivity].
Defined.

Lemma unparseable_upstream_body_witness :
  replies (final (engine := v8) (world_of (Some "secret") (Fulfilled garbled)) (post english_course))
  = [(500%N, VObj [("error", VStr "後端伺服器發生內部錯誤");
                  ("details", VStr "Unexpected token < in JSON at position 0")])].
Proof.
  apply (unparseable_upstream_body (engine := v8) _ _ "線上英語課程" "secret" garbled
           unexpected_token);
    try reflexivity; try discriminate.
  cbn; lia.
Defined.

End Contract.

(** ** Beyond the contract: every way through the handler *)

Module Behaviour.
Import JS Effects Proxy Paths Outcomes Sample Flow Unquote.

(** *** Strings *)

Lemma append_inv_head (p a b : string) : p ++ a = p ++ b -> a = b.
Proof.
  induction p as [| x p IH]; cbn; intros Heq; [exact Heq |].
  injection Heq as Heq. now apply IH.
Qed.

Lemma list_ascii_of_append (a b : string) :
  list_ascii_of_string (a ++ b) = (list_ascii_of_string a ++ list_ascii_of_string b)%list.
Proof. induction a as [| x a IH]; cbn; [reflexivity | now rewrite IH]. Qed.

Lemma append_inv_tail (s a b : string) : a ++ s = b ++ s -> a = b.
Proof.
  intros Heq. apply (f_equal list_ascii_of_string) in Heq.
  rewrite !list_ascii_of_append in Heq. apply app_inv_tail in Heq.
  rewrite <- (string_of_list_ascii_of_string a), <- (string_of_list_ascii_of_string b).
  now rewrite Heq.
Qed.

(** *** Quoting loses nothing *)

Lemma unescape_escape_char (c : ascii) (t : string) :
  unescape (escape_char c ++ t) = option_map (String c) (unescape t).
Proof.
  destruct c as [[] [] [] [] [] [] [] []]; reflexivity.
Qed.

Lemma unescape_escape (s : string) : unescape (escape s) = Some s.
Proof.
  induction s as [| c s IH]; [reflexivity |].
  cbn [escape]. now rewrite unescape_escape_char, IH.
Qed.

Lemma escape_inj (a b : string) : escape a = escape b -> a = b.
Proof.
  intros Heq. apply (f_equal unescape) in Heq.
  rewrite !unescape_escape in Heq. now injection Heq.
Qed.

(** The serialised payload is a fixed text around the quoted user query. *)
Lemma payload_text :
  exists head tail, forall q,
    SerializeJSONProperty (payload q) = Some (head ++ escape q ++ tail).
Proof.
  exists ("{" ++ QuoteJSONString "contents" ++ ":[{" ++ QuoteJSONString "parts" ++ ":[{"
          ++ QuoteJSONString "text" ++ ":" ++ double_quote).
  eexists. intros q.
  unfold payload. cbn [SerializeJSONProperty]. unfold QuoteJSONString.
  cbn [String.concat]. rewrite !append_assoc. cbn [append]. reflexivity.
Qed.

(** An array of strings converts to its elements joined by commas. *)
Lemma ToString_strings {engine : Engine} (l : list string) :
  ToString (VArr (map VStr l)) = Ok (String.concat "," l).
Proof.
  induction l as [| s l IH]; [reflexivity |].
  destruct l as [| s' l]; [reflexivity |].
  change (ToString (VArr (map VStr (s :: s' :: l))))
    with (match ToString (VArr (map VStr (s' :: l))) with
          | Ok r => Ok (s ++ "," ++ r)
          | Thrown e => Thrown e
          end).
  now rewrite IH.
Qed.

Section Behaviour.
Context {engine : Engine}.
Variable w : world.
Variable request : Http.request.

(** Every run follows one of the ways of [path]. *)
Lemma run_path : path w request (run w request).
Proof.
  destruct (String.eqb_spec (Http.method request) "POST") as [Hm | Hm].
  2: { rewrite (run_not_post w request Hm). now constructor. }
  destruct (destructure "topic" (Http.body request)) as [topic | e] eqn:Hd.
  2: { rewrite (run_body_throws w request Hm e Hd). now constructor. }
  destruct (ToBoolean topic) eqn:Hb.
  2: { rewrite (run_topic_missing w request Hm topic Hd Hb). now apply TopicMissing with topic. }
  destruct (ToBoolean (env_value (GEMINI_API_KEY w))) eqn:Hkb.
  2: { rewrite (run_key_missing w request Hm topic Hd Hb Hkb). now apply KeyMissing with topic. }
  destruct (GEMINI_API_KEY w) as [k |] eqn:Hk; [| discriminate].
  assert (Hne : k <> "") by (intros ->; discriminate).
  destruct (ToString topic) as [t | e] eqn:Ht.
  2: { rewrite (run_query_throws w request Hm topic Hd Hb k Hk Hne e Ht).
       now apply QueryThrows with topic k. }
  assert (Hv : validated w request topic k t) by (repeat split; assumption).
  destruct (network w (apiUrl k) (fetchInit t)) as [r | e] eqn:Hn.
  - destruct (Fetch.ok r) eqn:Hok.
    + destruct (Fetch.json r) as [data | e] eqn:Hj.
      * rewrite (run_relayed w request Hm topic Hd Hb k Hk Hne t Ht r Hn data Hok Hj).
        now apply Relayed with topic r.
      * rewrite (run_unparseable w request Hm topic Hd Hb k Hk Hne t Ht r Hn e Hok Hj).
        now apply Unparseable with topic r.
    + destruct (Fetch.text r) as [errorText | e] eqn:Hx.
      * rewrite (run_upstream_failed w request Hm topic Hd Hb k Hk Hne t Ht r Hn errorText Hok Hx).
        now apply UpstreamFailed with topic.
      * rewrite (run_upstream_unread w request Hm topic Hd Hb k Hk Hne t Ht r Hn e Hok Hx).
        now apply UpstreamUnread with topic r.
  - rewrite (run_fetch_rejected w request Hm topic Hd Hb k Hk Hne t Ht e Hn).
    now apply FetchRejected with topic.
Qed.

(** X1.  When the outbound call itself fails (the promise of [fetch] rejects
    with [e]), the handler has made its one call, logs [e] and replies 500
    with the internal-error text and the message of [e] as [details]. *)
Theorem transport_failure (topic k : string) (e : js_error) :
  Http.method request = "POST" ->
  destructure "topic" (Http.body request) = Ok (VStr topic) -> topic <> "" ->
  GEMINI_API_KEY w = Some k -> k <> "" ->
  network w (apiUrl k) (fetchInit topic) = Rejected e ->
  replies (final w request) =
    [(500%N, VObj [("error", VStr "後端伺服器發生內部錯誤"); ("details", VStr (message e))])] /\
  console (final w request) = [[LogStr "後端代理發生錯誤:"; LogError e]] /\
  fetch_calls (final w request) = [(apiUrl k, fetchInit topic)].
Proof.
  intros Hm Hd Ht Hk Hne Hn. unfold final.
  now rewrite (run_fetch_rejected w request Hm (VStr topic) Hd (nonempty_truthy topic Ht)
                 k Hk Hne topic eq_refl e Hn).
Qed.

(** X2.  When the upstream status is outside the success range and reading
    the error body fails with [e], the statements after the read are skipped:
    the upstream-error line is never written and no status-code message is
    built; the reply is 500 with the message of [e] as [details]. *)
Theorem unreadable_error_body (topic k : string) (r : Fetch.Response) (e : js_error) :
  Http.method request = "POST" ->
  destructure "topic" (Http.body request) = Ok (VStr topic) -> topic <> "" ->
  GEMINI_API_KEY w = Some k -> k <> "" ->
  network w (apiUrl k) (fetchInit topic) = Fulfilled r ->
  (Fetch.status r < 200 \/ 299 < Fetch.status r)%N ->
  Fetch.text r = Rejected e ->
  replies (final w request) =
    [(500%N, VObj [("error", VStr "後端伺服器發生內部錯誤"); ("details", VStr (message e))])] /\
  console (final w request) = [[LogStr "後端代理發生錯誤:"; LogError e]].
Proof.
  intros Hm Hd Ht Hk Hne Hn Hok Hx. apply not_ok_range in Hok. unfold final.
  now rewrite (run_upstream_unread w request Hm (VStr topic) Hd (nonempty_truthy topic Ht)
                 k Hk Hne topic eq_refl r Hn e Hok Hx).
Qed.

(** X3.  The function never ends by throwing: whatever the request and the
    world, it runs to its end or leaves by [return], so the promise it returns
    is never rejected. *)
Theorem never_rejects :
  fst (run w request) = Normal tt \/ fst (run w request) = Return.
Proof.
  destruct run_path; cbn [fst]; auto.
Qed.

(** X4.  The status of the reply is one of 200, 400, 405 and 500, and it is
    the status code the [response] object is left with. *)
Theorem reply_status_codes :
  exists code body,
    replies (final w request) = [(code, body)] /\
    statusCode (final w request) = code /\
    (code = 200 \/ code = 400 \/ code = 405 \/ code = 500)%N.
Proof.
  unfold final.
  destruct run_path; do 2 eexists;
    (split; [reflexivity | split; [reflexivity | auto]]).
Qed.

(** X5.  Order of the effects: sending the reply is the last thing a run
    does, and an outbound call, when there is one, is the first. *)
Theorem order_of_effects :
  (exists before code body, trace (final w request) = (before ++ [Send code body])%list) /\
  (forall url init, In (FetchCall url init) (trace (final w request)) ->
   exists rest, trace (final w request) = FetchCall url init :: rest).
Proof.
  unfold final. split.
  - destruct run_path; cbn [snd trace caught].
    1, 3: exists []; do 2 eexists; reflexivity.
    1, 3: eexists [_]; do 2 eexists; reflexivity.
    1: eexists [_]; do 2 eexists; reflexivity.
    1, 3, 5: eexists [_; _]; do 2 eexists; reflexivity.
    + eexists [_]; do 2 eexists; reflexivity.
    + eexists [_; _; _]; do 2 eexists; reflexivity.
  - intros url init Hin.
    destruct run_path; cbn [snd trace caught In] in *;
      repeat (destruct Hin as [Hin | Hin]; try discriminate Hin; try contradiction);
      injection Hin as <- <-; eexists; reflexivity.
Qed.

(** X6.  A 200 is sent exactly when validation passed, the call was answered
    with a success status and its body read as JSON; the body of the reply
    is then that JSON value.  No other way through the function yields a
    200. *)
Theorem success_only_from_upstream (data : value) :
  replies (final w request) = [(200%N, data)] <->
  exists topic k t r,
    validated w request topic k t /\
    network w (apiUrl k) (fetchInit t) = Fulfilled r /\
    Fetch.ok r = true /\
    Fetch.json r = Fulfilled data.
Proof.
  unfold final. split.
  - destruct run_path as
      [ | | | | | | topic k t r data' Hv Hn Hok Hj | | | ];
      cbn [snd]; intros Hr; try discriminate Hr.
    injection Hr as <-. now exists topic, k, t, r.
  - intros (topic & k & t & r & (Hm & Hd & Hb & Hk & Hne & Ht) & Hn & Hok & Hj).
    now rewrite (run_relayed w request Hm topic Hd Hb k Hk Hne t Ht r Hn data Hok Hj).
Qed.

(** X7.  The client errors are exact: 405 is sent if and only if the method
    is not POST, and 400 if and only if the method is POST, the body can be
    destructured and its [topic] is falsy (absent, [null], empty, but also
    [false], [0] or [NaN]). *)
Theorem client_errors_exact :
  (map fst (replies (final w request)) = [405%N] <-> Http.method request <> "POST") /\
  (map fst (replies (final w request)) = [400%N] <->
   Http.method request = "POST" /\
   exists topic, destructure "topic" (Http.body request) = Ok topic /\ ToBoolean topic = false).
Proof.
  unfold final. split; split.
  - destruct run_path; cbn [snd]; intros Hr; try discriminate Hr; assumption.
  - intros Hm. now rewrite (run_not_post w request Hm).
  - destruct run_path as [ | | topic Hm Hd Hb | | | | | | | ];
      cbn [snd]; intros Hr; try discriminate Hr.
    split; [assumption | now exists topic].
  - intros (Hm & topic & Hd & Hb).
    now rewrite (run_topic_missing w request Hm topic Hd Hb).
Qed.

(** X8.  Console output goes with the 500s and only with them: a run writes
    to the console if and only if its reply has status 500.  The 405, 400 and
    200 ways are silent. *)
Theorem errors_are_logged :
  map fst (replies (final w request)) = [500%N] <-> console (final w request) <> [].
Proof.
  unfold final.
  destruct run_path; cbn [snd]; split; intros Hr;
    solve [ discriminate Hr | reflexivity | now contradiction Hr | discriminate ].
Qed.

(** X9.  Whenever the reply carries a [details] field, the last console line
    is the one of the [catch] block and shows the very error whose message
    was sent. *)
Theorem details_are_logged (body d : value) :
  replies (final w request) = [(500%N, body)] ->
  member ["details"] body = Some d ->
  exists e,
    d = VStr (message e) /\
    last (console (final w request)) [] = [LogStr "後端代理發生錯誤:"; LogError e].
Proof.
  unfold final.
  destruct run_path as
    [ | e | | | ? ? e | ? ? ? e | | ? ? ? ? e | ? ? ? r | ? ? ? ? e ];
    cbn [snd]; intros Hr Hd; try discriminate Hr; injection Hr as <-;
    try discriminate Hd; injection Hd as <-.
  1-4, 6: exists e; split; reflexivity.
  exists (upstream_failure (Fetch.status r)); split; reflexivity.
Qed.

(** X10.  A truthy topic that cannot be converted to a string (an object with
    an own [toString] member) is not rejected with 400: building the user
    query throws, no outbound call is made, and the reply is 500 with the
    engine's conversion error as [details]. *)
Theorem unconvertible_topic (properties : list (string * value)) (x : value) (k : string) :
  Http.method request = "POST" ->
  destructure "topic" (Http.body request) = Ok (VObj properties) ->
  own_property "toString" properties = Some x ->
  GEMINI_API_KEY w = Some k -> k <> "" ->
  replies (final w request) =
    [(500%N, VObj [("error", VStr "後端伺服器發生內部錯誤");
                  ("details", VStr to_primitive_message)])] /\
  fetch_calls (final w request) = [].
Proof.
  intros Hm Hd Hts Hk Hne. unfold final.
  rewrite (run_query_throws w request Hm (VObj properties) Hd eq_refl k Hk Hne
             (mkError "TypeError" to_primitive_message)).
  - now split.
  - cbn. now rewrite Hts.
Qed.

(** X11.  An array topic is never rejected as missing, whatever it holds,
    the empty array included: the reply is a 200 or a 500, never the 400.  If
    the array converts to a string, the call is made with that text as the
    topic, which for an array of strings is its elements joined by commas
    (nothing, when it is empty); if an element does not convert, no call is
    made and the reply is 500 with the conversion error as [details]. *)
Theorem array_topic_passes (elements : list value) (k : string) :
  Http.method request = "POST" ->
  destructure "topic" (Http.body request) = Ok (VArr elements) ->
  GEMINI_API_KEY w = Some k -> k <> "" ->
  (exists code body,
     replies (final w request) = [(code, body)] /\ (code = 200 \/ code = 500)%N) /\
  (forall t, ToString (VArr elements) = Ok t ->
     fetch_calls (final w request) = [(apiUrl k, fetchInit t)]) /\
  (forall e, ToString (VArr elements) = Thrown e ->
     fetch_calls (final w request) = [] /\
     replies (final w request) =
       [(500%N, VObj [("error", VStr "後端伺服器發生內部錯誤"); ("details", VStr (message e))])]) /\
  (forall l, elements = map VStr l ->
     fetch_calls (final w request) = [(apiUrl k, fetchInit (String.concat "," l))]).
Proof.
  intros Hm Hd Hk Hne. split; [| split; [| split]].
  - unfold final.
    destruct run_path as
      [ Hm' | | topic Hm' Hd' Hb | | | | | | | ];
      try solve [do 2 eexists; split; [reflexivity | auto]].
    + contradiction.
    + rewrite Hd in Hd'. injection Hd' as <-. discriminate.
  - intros t Ht.
    exact (calls_when_valid w request (VArr elements) t k Hm Hd eq_refl Ht Hk Hne).
  - intros e He. unfold final.
    now rewrite (run_query_throws w request Hm (VArr elements) Hd eq_refl k Hk Hne e He).
  - intros l ->.
    exact (calls_when_valid w request (VArr (map VStr l)) (String.concat "," l) k
             Hm Hd eq_refl (ToString_strings l) Hk Hne).
Qed.

End Behaviour.

(** X12.  The credential reaches the URL of the outbound call and nothing
    else: under two different non-empty keys, with the network answering
    alike, a request gets the same reply, the same console output and the
    same call but for its URL. *)
Theorem credential_stays_in_url {engine : Engine} (w1 w2 : world) (request : Http.request)
    (k1 k2 : string) :
  GEMINI_API_KEY w1 = Some k1 -> k1 <> "" ->
  GEMINI_API_KEY w2 = Some k2 -> k2 <> "" ->
  (forall init, network w1 (apiUrl k1) init = network w2 (apiUrl k2) init) ->
  replies (final w1 request) = replies (final w2 request) /\
  console (final w1 request) = console (final w2 request) /\
  map snd (fetch_calls (final w1 request)) = map snd (fetch_calls (final w2 request)).
Proof.
  intros Hk1 Hne1 Hk2 Hne2 Hnet. unfold final.
  destruct (run_path w1 request) as
    [ Hm | e Hm Hd | topic Hm Hd Hb | topic Hm Hd Hb Hkb | topic k e Hm Hd Hb Hk Hne Ht
    | topic k t e Hv Hn | topic k t r data Hv Hn Hok Hj | topic k t r e Hv Hn Hok Hj
    | topic k t r errorText Hv Hn Hok Hx | topic k t r e Hv Hn Hok Hx ].
  - now rewrite (run_not_post w2 request Hm).
  - now rewrite (run_body_throws w2 request Hm e Hd).
  - now rewrite (run_topic_missing w2 request Hm topic Hd Hb).
  - rewrite Hk1 in Hkb. cbn in Hkb. apply String.eqb_neq in Hne1.
    rewrite Hne1 in Hkb. discriminate.
  - now rewrite (run_query_throws w2 request Hm topic Hd Hb k2 Hk2 Hne2 e Ht).
  - destruct Hv as (Hm & Hd & Hb & Hk & Hne & Ht).
    rewrite Hk1 in Hk. injection Hk as <-. rewrite Hnet in Hn.
    now rewrite (run_fetch_rejected w2 request Hm topic Hd Hb k2 Hk2 Hne2 t Ht e Hn).
  - destruct Hv as (Hm & Hd & Hb & Hk & Hne & Ht).
    rewrite Hk1 in Hk. injection Hk as <-. rewrite Hnet in Hn.
    now rewrite (run_relayed w2 request Hm topic Hd Hb k2 Hk2 Hne2 t Ht r Hn data Hok Hj).
  - destruct Hv as (Hm & Hd & Hb & Hk & Hne & Ht).
    rewrite Hk1 in Hk. injection Hk as <-. rewrite Hnet in Hn.
    now rewrite (run_unparseable w2 request Hm topic Hd Hb k2 Hk2 Hne2 t Ht r Hn e Hok Hj).
  - destruct Hv as (Hm & Hd & Hb & Hk & Hne & Ht).
    rewrite Hk1 in Hk. injection Hk as <-. rewrite Hnet in Hn.
    now rewrite (run_upstream_failed w2 request Hm topic Hd Hb k2 Hk2 Hne2 t Ht r Hn
                   errorText Hok Hx).
  - destruct Hv as (Hm & Hd & Hb & Hk & Hne & Ht).
    rewrite Hk1 in Hk. injection Hk as <-. rewrite Hnet in Hn.
    now rewrite (run_upstream_unread w2 request Hm topic Hd Hb k2 Hk2 Hne2 t Ht r Hn e Hok Hx).
Qed.

(** X13.  The body of the outbound call determines the topic: quoting the
    user query into the JSON text merges no two topics, whatever characters
    they hold. *)
Theorem body_determines_topic (t1 t2 : string) :
  Fetch.body (fetchInit t1) = Fetch.body (fetchInit t2) <-> t1 = t2.
Proof.
  split; [| now intros ->].
  destruct payload_text as (head & tail & Htext).
  unfold fetchInit, JSON_stringify. cbn [Fetch.body]. rewrite !Htext.
  intros Heq. injection Heq as Heq.
  apply append_inv_head in Heq.
  apply (append_inv_tail tail (escape (userQuery t1)) (escape (userQuery t2))) in Heq.
  apply escape_inj in Heq. unfold userQuery in Heq.
  apply append_inv_head in Heq.
  exact (append_inv_tail _ t1 t2 Heq).
Qed.

(** X14.  The [details] of an upstream failure identify the status code: two
    failure messages are equal only for equal codes. *)
Theorem details_identify_status (n1 n2 : N) :
  message (upstream_failure n1) = message (upstream_failure n2) <-> n1 = n2.
Proof.
  split; [| now intros ->].
  unfold upstream_failure. cbn [message]. intros Heq.
  apply append_inv_head in Heq. unfold decimal in Heq.
  apply (f_equal NilEmpty.uint_of_string) in Heq.
  rewrite !NilEmpty.usu in Heq. injection Heq as Heq.
  now apply DecimalN.Unsigned.to_uint_inj.
Qed.

(** *** The theorems at concrete requests *)

Lemma transport_failure_witness :
  replies (final (engine := v8) (world_of (Some "secret") offline) (post english_course)) =
    [(500%N, VObj [("error", VStr "後端伺服器發生內部錯誤"); ("details", VStr "fetch failed")])] /\
  console (final (engine := v8) (world_of (Some "secret") offline) (post english_course)) =
    [[LogStr "後端代理發生錯誤:"; LogError (mkError "TypeError" "fetch failed")]] /\
  fetch_calls (final (engine := v8) (world_of (Some "secret") offline) (post english_course)) =
    [(apiUrl "secret", fetchInit "線上英語課程")].
Proof.
  apply (transport_failure (engine := v8) _ _ "線上英語課程" "secret"
           (mkError "TypeError" "fetch failed"));
    try reflexivity; discriminate.
Defined.

Lemma unreadable_error_body_witness :
  replies (final (engine := v8) (world_of (Some "secret") (Fulfilled cut_off))
             (post english_course)) =
    [(500%N, VObj [("error", VStr "後端伺服器發生內部錯誤"); ("details", VStr "terminated")])] /\
  console (final (engine := v8) (world_of (Some "secret") (Fulfilled cut_off))
             (post english_course)) =
    [[LogStr "後端代理發生錯誤:"; LogError (mkError "TypeError" "terminated")]].
Proof.
  apply (unreadable_error_body (engine := v8) _ _ "線上英語課程" "secret" cut_off
           (mkError "TypeError" "terminated"));
    try reflexivity; try discriminate.
  right; reflexivity.
Defined.

Lemma details_are_logged_witness :
  exists e,
    VStr "Unexpected token < in JSON at position 0" = VStr (message e) /\
    last (console (final (engine := v8) (world_of (Some "secret") (Fulfilled garbled))
                     (post english_course))) [] =
      [LogStr "後端代理發生錯誤:"; LogError e].
Proof.
  apply (details_are_logged (engine := v8) _ _
           (VObj [("error", VStr "後端伺服器發生內部錯誤");
                  ("details", VStr "Unexpected token < in JSON at position 0")]));
    reflexivity.
Defined.

Lemma unconvertible_topic_witness :
  replies (final (engine := v8) (world_of (Some "secret") (Fulfilled answered))
             (post (VObj [("topic", VObj [("toString", VNum "1")])]))) =
    [(500%N, VObj [("error", VStr "後端伺服器發生內部錯誤");
                  ("details", VStr "Cannot convert object to primitive value")])] /\
  fetch_calls (final (engine := v8) (world_of (Some "secret") (Fulfilled answered))
                 (post (VObj [("topic", VObj [("toString", VNum "1")])]))) = [].
Proof.
  apply (unconvertible_topic (engine := v8) _ _ [("toString", VNum "1")] (VNum "1") "secret");
    try reflexivity; discriminate.
Defined.

Lemma array_topic_passes_witness :
  fetch_calls (final (engine := v8) (world_of (Some "secret") (Fulfilled answered))
                 (post (VObj [("topic", VArr [])]))) =
    [(apiUrl "secret", fetchInit "")] /\
  fetch_calls (final (engine := v8) (world_of (Some "secret") (Fulfilled answered))
                 (post (VObj [("topic", VArr [VObj [("toString", VNull)]])]))) = [].
Proof.
  split.
  - refine (proj2 (proj2 (proj2
              (array_topic_passes (engine := v8) (world_of (Some "secret") (Fulfilled answered))
                 (post (VObj [("topic", VArr [])])) [] "secret" eq_refl eq_refl eq_refl _)))
              [] eq_refl).
    discriminate.
  - refine (proj1 (proj1 (proj2 (proj2
              (array_topic_passes (engine := v8) (world_of (Some "secret") (Fulfilled answered))
                 (post (VObj [("topic", VArr [VObj [("toString", VNull)]])]))
                 [VObj [("toString", VNull)]] "secret" eq_refl eq_refl eq_refl _)))
              (mkError "TypeError" "Cannot convert object to primitive value") eq_refl)).
    discriminate.
Defined.

Lemma credential_stays_in_url_witness :
  replies (final (engine := v8) (world_of (Some "first key") (Fulfilled throttled))
             (post english_course)) =
  replies (final (engine := v8) (world_of (Some "second key") (Fulfilled throttled))
             (post english_course)) /\
  console (final (engine := v8) (world_of (Some "first key") (Fulfilled throttled))
             (post english_course)) =
  console (final (engine := v8) (world_of (Some "second key") (Fulfilled throttled))
             (post english_course)) /\
  map snd (fetch_calls (final (engine := v8) (world_of (Some "first key") (Fulfilled throttled))
                          (post english_course))) =
  map snd (fetch_calls (final (engine := v8) (world_of (Some "second key") (Fulfilled throttled))
                          (post english_course))).
Proof.
  apply (credential_stays_in_url (engine := v8) _ _ _ "first key" "second key");
    try reflexivity; discriminate.
Defined.

End Behaviour.
